(** * pecet3/logger: the per-instance logging calls and the error cache

    A shallow embedding of [logger.go] (type [Logger], [New] and the six
    logging methods) and of [cache.go] ([addCache]), together with the parts of
    Go's [fmt], [runtime], [strconv] and [sync] packages these functions
    rely on. *)

From Stdlib Require Import Ascii String ZArith.
From stdpp Require Import base decidable countable gmap strings pretty list.

Local Open Scope string_scope.
Local Open Scope Z_scope.
Local Open Scope list_scope.

(** ** Go values and the [fmt] package *)

(** The line feed that [Println] appends. *)
Definition newline : string := String (Ascii.ascii_of_nat 10) EmptyString.

(** An [interface{}] operand of a variadic logging call. *)
Inductive value : Type :=
  | VString (s : string)
  | VInt (n : Z)
  | VBool (b : bool)
  | VNil.

(** [strconv.Itoa]: the decimal rendering of an [int]. *)
Definition Itoa (n : Z) : string := pretty n.

(** [pp.printArg] with verb ['v']. *)
Definition printArg (arg : value) : string :=
  match arg with
  | VString s => s
  | VInt n => Itoa n
  | VBool true => "true"
  | VBool false => "false"
  | VNil => "<nil>"
  end.

(** [arg != nil && reflect.TypeOf(arg).Kind() == reflect.String]. *)
Definition isString (arg : value) : bool :=
  match arg with
  | VString _ => true
  | _ => false
  end.

(** [pp.doPrint]: a space goes between two operands when neither of them
    is a string.  [argNum] and [prevString] are the loop's variables. *)
Fixpoint doPrint (argNum : nat) (prevString : bool) (a : list value) : string :=
  match a with
  | [] => EmptyString
  | arg :: rest =>
      (if (0 <? argNum)%nat && negb (isString arg) && negb prevString
       then " " else EmptyString)
      +:+ printArg arg
      +:+ doPrint (S argNum) (isString arg) rest
  end.

(** [fmt.Sprint]. *)
Definition Sprint (a : list value) : string := doPrint 0 false a.

(** [pp.doPrintln]: a space between all operands, a newline at the end. *)
Fixpoint doPrintln (argNum : nat) (a : list value) : string :=
  match a with
  | [] => newline
  | arg :: rest =>
      (if (0 <? argNum)%nat then " " else EmptyString)
      +:+ printArg arg
      +:+ doPrintln (S argNum) rest
  end.

(** [fmt.Sprintln]; [fmt.Println] writes this string to standard output. *)
Definition Sprintln (a : list value) : string := doPrintln 0 a.

(** The tail [fmt.Sprintf] appends for operands no verb consumed. *)
Fixpoint extraOperands (a : list string) : string :=
  match a with
  | [] => EmptyString
  | [x] => "string=" +:+ x
  | x :: rest => "string=" +:+ x +:+ ", " +:+ extraOperands rest
  end.

(** [fmt.Sprintf] for string operands.  The package's format strings only
    use the verb [%s]; it is the verb interpreted here. *)
Fixpoint Sprintf (format : string) (a : list string) : string :=
  match format with
  | EmptyString =>
      match a with
      | [] => EmptyString
      | _ :: _ => "%!(EXTRA " +:+ extraOperands a +:+ ")"
      end
  | String ch rest =>
      if Ascii.eqb ch "%"%char then
        match rest with
        | String verb rest' =>
            if Ascii.eqb verb "s"%char then
              match a with
              | x :: a' => x +:+ Sprintf rest' a'
              | [] => "%!s(MISSING)" +:+ Sprintf rest' []
              end
            else String ch (String verb (Sprintf rest' a))
        | EmptyString => "%!(NOVERB)"
        end
      else String ch (Sprintf rest a)
  end.

(** ** [time.Time] *)

(** The three words of a [time.Time]: the wall-clock word, the extended
    (monotonic) word and the location pointer.  Go compares map keys of this
    type field by field. *)
Record Time : Type := mkTime { wall : N; ext : Z; loc : N }.

#[global] Instance Time_eq_dec : EqDecision Time.
Proof. solve_decision. Defined.

#[global] Instance Time_countable : Countable Time :=
  inj_countable'
    (fun t => (wall t, ext t, loc t))
    (fun p => mkTime p.1.1 p.1.2 p.2)
    (fun t => match t with mkTime _ _ _ => eq_refl end).

(** ** The [runtime] package *)

(** What [runtime.Caller] recovers about a frame. *)
Record Frame : Type := mkFrame { framePC : N; frameFile : string; frameLine : Z }.

(** What a logging call reads from its surroundings: the frame of its caller,
    if the runtime can recover it, the function table, the strings returned
    by the package's [getCurrentDate] and [getCurrentTime], and the value of
    [time.Now()]. *)
Record Env : Type := mkEnv {
  callerFrame : option Frame;
  funcTable : N -> option string;
  currentDate : string;
  currentTime : string;
  timeNow : Time
}.

(** [runtime.Caller(1)]: [(pc, file, line, ok)], all zero when the frame
    cannot be recovered. *)
Definition Caller (e : Env) : N * string * Z * bool :=
  match callerFrame e with
  | Some f => (framePC f, frameFile f, frameLine f, negb (framePC f =? 0)%N)
  | None => (0%N, EmptyString, 0, false)
  end.

(** [runtime.FuncForPC]: [nil] (here [None]) when no function contains
    [pc]; no function contains the zero program counter. *)
Definition FuncForPC (e : Env) (pc : N) : option string :=
  if (pc =? 0)%N then None else funcTable e pc.

(** [Func.Name], which returns the empty string on a [nil] receiver. *)
Definition Name (fn : option string) : string :=
  match fn with
  | Some name => name
  | None => EmptyString
  end.

(** [getCurrentDate] and [getCurrentTime] belong to a file of the package
    that is not among the sources at hand; the strings they return are
    inputs of a call. *)
Definition getCurrentDate (e : Env) : string := currentDate e.
Definition getCurrentTime (e : Env) : string := currentTime e.

(** ** Effects: the heap cell of the receiver, standard output, panics *)

Record Config : Type := mkConfig { IsDebugMode : bool }.

(** The struct behind a [*Logger].  [cache] is [None] for a [nil] map,
    [cMu] tells whether the mutex is held, [c] is [None] for a [nil]
    pointer. *)
Record Logger : Type := mkLogger {
  cache : option (gmap Time string);
  cMu : bool;
  c : option Config
}.

(** What a call does to the outside: a write to standard output, or a call
    of the package-level [Error] function with its operands. *)
Inductive event : Type :=
  | Stdout (s : string)
  | PkgError (args : list value).

Record World : Type := mkWorld { self : Logger; events : list event }.

Inductive outcome (A : Type) : Type :=
  | Returned (a : A)
  | Panicked (why : string)
  | Blocked.
Arguments Returned {A} a.
Arguments Panicked {A} why.
Arguments Blocked {A}.

Definition Go (A : Type) : Type := World -> outcome A * World.

Definition ret {A : Type} (a : A) : Go A := fun w => (Returned a, w).

Definition bind {A B : Type} (m : Go A) (k : A -> Go B) : Go B :=
  fun w =>
    match m w with
    | (Returned a, w') => k a w'
    | (Panicked why, w') => (Panicked why, w')
    | (Blocked, w') => (Blocked, w')
    end.

Notation "m >> k" := (bind m (fun _ => k))
  (at level 100, k at level 200, right associativity).

(** [defer d] placed in front of [body]: [d] runs when [body] returns and
    when it panics. *)
Definition deferring {A : Type} (d : Go unit) (body : Go A) : Go A :=
  fun w =>
    match body w with
    | (Blocked, w') => (Blocked, w')
    | (r, w') =>
        match d w' with
        | (Returned _, w'') => (r, w'')
        | (Panicked why, w'') => (Panicked why, w'')
        | (Blocked, w'') => (Blocked, w'')
        end
    end.

Definition emit (ev : event) : Go unit :=
  fun w => (Returned tt, mkWorld (self w) (events w ++ [ev])).

(** [fmt.Println]. *)
Definition Println (a : list value) : Go unit := emit (Stdout (Sprintln a)).

(** [sync.Mutex.Lock]: with the mutex held and nobody to release it, the
    call does not return. *)
Definition Lock : Go unit :=
  fun w =>
    if cMu (self w) then (Blocked, w)
    else (Returned tt,
          mkWorld (mkLogger (cache (self w)) true (c (self w))) (events w)).

(** [sync.Mutex.Unlock]. *)
Definition Unlock : Go unit :=
  fun w =>
    if cMu (self w)
    then (Returned tt,
          mkWorld (mkLogger (cache (self w)) false (c (self w))) (events w))
    else (Panicked "fatal error: sync: unlock of unlocked mutex", w).

(** The statement [l.cache[t] = content]. *)
Definition mapassign (t : Time) (content : string) : Go unit :=
  fun w =>
    match cache (self w) with
    | Some m =>
        (Returned tt,
         mkWorld (mkLogger (Some (<[t := content]> m)) (cMu (self w)) (c (self w)))
                 (events w))
    | None => (Panicked "assignment to entry in nil map", w)
    end.

(** ** cache.go *)

Definition addCache (t : Time) (content : string) : Go unit :=
  Lock >>
  deferring Unlock (mapassign t content).

(** ** logger.go *)

Definition New (cfg : option Config) : Logger :=
  mkLogger (Some ∅) false cfg.

(** The declarations of the package's styling file that the logging methods
    use, taken as parameters: the style and colour markers and the two
    functions that decorate a text with them. *)
Class Styling : Type := mkStyling {
  bold : string;
  dim : string;
  italic : string;
  underline : string;
  brightGreen : string;
  brightBlue : string;
  brightYellow : string;
  orange : string;
  magenta : string;
  formatText : string -> string -> string;
  formatTextExt : string -> string -> string -> string
}.

Definition Error (args : list value) (e : Env) : Go unit :=
  let '(pc, _, line, _) := Caller e in
  let fn := FuncForPC e pc in
  let fName := Name fn in
  let date := getCurrentDate e in
  let currentTime := getCurrentTime e in
  let msg := Sprint args in
  let contentRaw :=
    Sprintf "[%s] %s %s (%s:%s)"
      [" ERROR"; date; currentTime; fName; Itoa line] in
  addCache (timeNow e) contentRaw >>
  emit (PkgError [VString msg]).

Section Styled.
Context {sty : Styling}.

Definition Info (args : list value) (e : Env) : Go unit :=
  let date := getCurrentDate e in
  let time := getCurrentTime e in
  let msg := Sprint args in
  let content :=
    Sprintf "[%s] %s %s %s"
      [formatTextExt bold brightGreen " INFO ";
       formatTextExt dim italic date;
       formatText underline time;
       formatText bold msg] in
  Println [VString content].

Definition InfoC (args : list value) (e : Env) : Go unit :=
  let '(pc, _, line, _) := Caller e in
  let fn := FuncForPC e pc in
  let fName := Name fn in
  let date := getCurrentDate e in
  let time := getCurrentTime e in
  let msg := Sprint args in
  let content :=
    Sprintf "[%s] %s %s (%s:%s)"
      [formatTextExt bold brightGreen " INFO ";
       formatTextExt dim italic date;
       formatText underline time;
       formatText brightBlue fName;
       formatText bold (Itoa line)] in
  Println [VString content] >>
  if (0 <? length args)%nat
  then Println [VString "↳"; VString (formatTextExt bold brightYellow msg)]
  else ret tt.

Definition Warn (args : list value) (e : Env) : Go unit :=
  let date := getCurrentDate e in
  let time := getCurrentTime e in
  let msg := Sprint args in
  let content :=
    Sprintf "[%s] %s %s %s"
      [formatTextExt bold orange " WARN ";
       formatTextExt dim italic date;
       formatText underline time;
       formatText bold msg] in
  Println [VString content].

Definition WarnC (args : list value) (e : Env) : Go unit :=
  let '(pc, _, line, _) := Caller e in
  let fn := FuncForPC e pc in
  let fName := Name fn in
  let date := getCurrentDate e in
  let time := getCurrentTime e in
  let msg := Sprint args in
  let content :=
    Sprintf "[%s] %s %s (%s:%s)"
      [formatTextExt bold orange " WARN ";
       formatTextExt dim italic date;
       formatText underline time;
       formatText brightBlue fName;
       formatText bold (Itoa line)] in
  Println [VString content] >>
  if (0 <? length args)%nat
  then Println [VString "↳"; VString (formatTextExt bold brightYellow msg)]
  else ret tt.

Definition Debug (args : list value) (e : Env) : Go unit :=
  let '(pc, _, line, _) := Caller e in
  let fn := FuncForPC e pc in
  let fName := Name fn in
  let date := getCurrentDate e in
  let time := getCurrentTime e in
  let msg := Sprint args in
  let content :=
    Sprintf "[%s] %s %s (%s:%s)"
      [formatTextExt bold magenta " DBUG ";
       formatTextExt dim italic date;
       formatText underline time;
       formatText brightBlue fName;
       formatText bold (Itoa line)] in
  Println [VString content] >>
  if (0 <? length args)%nat
  then Println [VString "↳"; VString (formatTextExt bold brightYellow msg)]
  else ret tt.

(** The public logging methods of a [*Logger]. *)
Inductive method : Type :=
  | MError | MInfo | MInfoC | MWarn | MWarnC | MDebug.

#[global] Instance method_eq_dec : EqDecision method.
Proof. solve_decision. Defined.

Definition call (m : method) (args : list value) (e : Env) : Go unit :=
  match m with
  | MError => Error args e
  | MInfo => Info args e
  | MInfoC => InfoC args e
  | MWarn => Warn args e
  | MWarnC => WarnC args e
  | MDebug => Debug args e
  end.

(** A program that makes one logging call after the other, each with its
    operands and what it reads from its surroundings. *)
Fixpoint calls (prog : list (method * list value * Env)) : Go unit :=
  match prog with
  | [] => ret tt
  | (m, args, e) :: rest => call m args e >> calls rest
  end.

End Styled.

(** Successive [addCache] calls. *)
Fixpoint addAll (writes : list (Time * string)) : Go unit :=
  match writes with
  | [] => ret tt
  | (t, content) :: rest => addCache t content >> addAll rest
  end.

(** The ANSI escape sequence that selects a graphic rendition. *)
Definition esc (code : string) : string :=
  String (Ascii.ascii_of_nat 27) ("[" +:+ code +:+ "m").

(** Modelled from the spec: the styling file of the package is not part of
    the sources at hand; the spec describes its output as the text between
    style markers (bold, dim, italic, underline, colours).  This instance
    puts the ANSI escape sequences of those styles in front of the text and
    the reset sequence behind it. *)
Definition ansi : Styling := {|
  bold := esc "1";
  dim := esc "2";
  italic := esc "3";
  underline := esc "4";
  brightGreen := esc "92";
  brightBlue := esc "94";
  brightYellow := esc "93";
  orange := esc "38;5;208";
  magenta := esc "35";
  formatText := fun style text => style +:+ text +:+ esc "0";
  formatTextExt := fun style colour text => style +:+ colour +:+ text +:+ esc "0"
|}.

(** ** Vocabulary of the statements *)

(** The two caller fields a method renders: the name of the calling
    function and the decimal line number. *)
Definition callerFields (e : Env) : string * string :=
  let '(pc, _, line, _) := Caller e in
  (Name (FuncForPC e pc), Itoa line).

(** The plain layout of the specification:
    [[ LEVEL] date time (funcName:line)]. *)
Definition formatPlain (level date time funcName line : string) : string :=
  "[" +:+ level +:+ "] " +:+ date +:+ " " +:+ time
  +:+ " (" +:+ funcName +:+ ":" +:+ line +:+ ")".

(** [sub] occurs in [s]. *)
Definition contains (s sub : string) : Prop :=
  exists pre post : string, s = pre +:+ sub +:+ post.

(** The keys of the cache; a [nil] map has none. *)
Definition keys (l : Logger) : gset Time :=
  match cache l with
  | Some m => dom m
  | None => ∅
  end.

(** A logger as the calls of a sequential program find it: the map is
    allocated and the mutex is free. *)
Definition ready (l : Logger) : Prop :=
  is_Some (cache l) /\ cMu l = false.

(** A caller in function [main.run], line 42 of [main.go], on 2 January
    2025 at 10:11:12. *)
Definition env0 : Env :=
  mkEnv (Some (mkFrame 4096 "main.go" 42))
        (fun pc => if (pc =? 4096)%N then Some "main.run" else None)
        "2025-01-02" "10:11:12" (mkTime 7 8 0).

(** The same instant with no caller frame recovered. *)
Definition envNoCaller : Env :=
  mkEnv None (fun _ => None) "2025-01-02" "10:11:12" (mkTime 7 8 0).

Definition world0 : World := mkWorld (New None) [].

(** The content of the last write under [t] among the writes [ws], given
    oldest first. *)
Fixpoint lastWrite (t : Time) (ws : list (Time * string)) : option string :=
  match ws with
  | [] => None
  | (t', content) :: rest =>
      match lastWrite t rest with
      | Some later => Some later
      | None => if decide (t' = t) then Some content else None
      end
  end.

(** The map after all the writes. *)
Definition written (ws : list (Time * string)) (m : gmap Time string) :
    gmap Time string :=
  foldl (fun acc w => <[w.1 := w.2]> acc) m ws.


Section StyledVocabulary.
Context {sty : Styling}.

(** The line of [Info] and [Warn]: tag, date, time, message. *)
Definition messageLine (tag : string) (msg : string) (e : Env) : string :=
  "[" +:+ tag +:+ "] " +:+ formatTextExt dim italic (currentDate e)
  +:+ " " +:+ formatText underline (currentTime e)
  +:+ " " +:+ formatText bold msg.

(** The header line of the methods that render the caller: tag, date, time,
    function name and line number. *)
Definition headerLine (tag : string) (e : Env) : string :=
  "[" +:+ tag +:+ "] " +:+ formatTextExt dim italic (currentDate e)
  +:+ " " +:+ formatText underline (currentTime e)
  +:+ " (" +:+ formatText brightBlue (callerFields e).1
  +:+ ":" +:+ formatText bold (callerFields e).2 +:+ ")".

(** The detail line: the arrow, a space, the message. *)
Definition detailLine (msg : string) : string :=
  "↳ " +:+ formatTextExt bold brightYellow msg.

(** The writes of a method that renders the caller. *)
Definition headerAndDetail (tag : string) (args : list value) (e : Env) :
    list event :=
  Stdout (headerLine tag e +:+ newline)
  :: match args with
     | [] => []
     | _ :: _ => [Stdout (detailLine (Sprint args) +:+ newline)]
     end.

(** The events of one call, in order. *)
Definition emitted (m : method) (args : list value) (e : Env) : list event :=
  match m with
  | MError => [PkgError [VString (Sprint args)]]
  | MInfo =>
      [Stdout (messageLine (formatTextExt bold brightGreen " INFO ")
                 (Sprint args) e +:+ newline)]
  | MInfoC => headerAndDetail (formatTextExt bold brightGreen " INFO ") args e
  | MWarn =>
      [Stdout (messageLine (formatTextExt bold orange " WARN ")
                 (Sprint args) e +:+ newline)]
  | MWarnC => headerAndDetail (formatTextExt bold orange " WARN ") args e
  | MDebug => headerAndDetail (formatTextExt bold magenta " DBUG ") args e
  end.

End StyledVocabulary.

(** The world with another configuration pointer in the logger. *)
Definition withConfig (cfg : option Config) (w : World) : World :=
  mkWorld (mkLogger (cache (self w)) (cMu (self w)) cfg) (events w).

(** The world with more events behind those it has. *)
Definition andThen (w : World) (evs : list event) : World :=
  mkWorld (self w) (events w ++ evs).

(** A write to standard output that starts with the arrow of the detail
    line. *)
Definition isDetail (ev : event) : bool :=
  match ev with
  | Stdout s => String.prefix "↳" s
  | PkgError _ => false
  end.

(** The methods of a program. *)
Definition methodsOf (prog : list (method * list value * Env)) : list method :=
  (fun call => call.1.1) <$> prog.

(** The rule of the specification for the message body: the renderings of
    the operands one after the other, with a space between two neighbours
    when neither of them is a string. *)
Fixpoint joinOperands (a : list value) : string :=
  match a with
  | [] => EmptyString
  | x :: rest =>
      printArg x
      +:+ match rest with
          | [] => EmptyString
          | y :: _ =>
              if negb (isString x) && negb (isString y)
              then " " else EmptyString
          end
      +:+ joinOperands rest
  end.

(** The strings one after the other, nothing in between. *)
Fixpoint concatenation (ss : list string) : string :=
  match ss with
  | [] => EmptyString
  | s :: rest => s +:+ concatenation rest
  end.

(** The styling functions put markers around the text and keep the text. *)
Definition keepsText (sty : Styling) : Prop :=
  (forall style text : string, contains (formatText style text) text)
  /\ (forall style colour text : string,
        contains (formatTextExt style colour text) text).

(** Different texts are styled differently. *)
Definition tellsApart (sty : Styling) : Prop :=
  forall style text1 text2 : string,
    formatText style text1 = formatText style text2 -> text1 = text2.

(** Two surroundings that differ at most in the caller. *)
Definition sameButCaller (e1 e2 : Env) : Prop :=
  currentDate e1 = currentDate e2
  /\ currentTime e1 = currentTime e2
  /\ timeNow e1 = timeNow e2.

(** A method renders the caller when a call of it can end differently for
    two callers, everything else being equal. *)
Definition rendersCaller {sty : Styling} (m : method) : Prop :=
  exists (args : list value) (e1 e2 : Env) (w : World),
    sameButCaller e1 e2 /\ call m args e1 w <> call m args e2 w.

(** The caller of [env0] one line further down. *)
Definition env1 : Env :=
  mkEnv (Some (mkFrame 4096 "main.go" 43))
        (fun pc => if (pc =? 4096)%N then Some "main.run" else None)
        "2025-01-02" "10:11:12" (mkTime 7 8 0).

(** ** Vocabulary of the further properties *)

(** The zero value of the struct [Logger]: a [nil] map, an unlocked mutex
    and a [nil] configuration pointer. *)
Definition zeroLogger : Logger := mkLogger None false None.

(** The line that [Error] caches in the surroundings [e]. *)
Definition errorLine (e : Env) : string :=
  formatPlain " ERROR" (currentDate e) (currentTime e)
    (callerFields e).1 (callerFields e).2.

(** The line number that [runtime.Caller] reports. *)
Definition callerLine (e : Env) : Z := (Caller e).1.2.

(** The cache writes of a program, oldest first: one for every [Error]
    call, under its [time.Now()]. *)
Fixpoint errorWrites (prog : list (method * list value * Env)) :
    list (Time * string) :=
  match prog with
  | [] => []
  | (MError, _, e) :: rest => (timeNow e, errorLine e) :: errorWrites rest
  | _ :: rest => errorWrites rest
  end.

(** The number of [Error] calls of a program. *)
Definition countErrors (prog : list (method * list value * Env)) : nat :=
  length (filter (fun m => m = MError) (methodsOf prog)).

(** The events of the calls of a program, in order. *)
Fixpoint emittedAll {sty : Styling}
    (prog : list (method * list value * Env)) : list event :=
  match prog with
  | [] => []
  | (m, args, e) :: rest => emitted m args e ++ emittedAll rest
  end.
(** ** Strings *)

Lemma append_empty_r (s : string) : s +:+ EmptyString = s.
Proof.
  induction s as [|ch s IH]; [reflexivity|].
  rewrite <- IH at 2. reflexivity.
Qed.

Lemma append_assoc (s1 s2 s3 : string) :
  (s1 +:+ s2) +:+ s3 = s1 +:+ s2 +:+ s3.
Proof.
  induction s1 as [|ch s1 IH]; [reflexivity|].
  change (String ch ((s1 +:+ s2) +:+ s3) = String ch (s1 +:+ s2 +:+ s3)).
  by rewrite IH.
Qed.

Lemma list_ascii_of_append (s1 s2 : string) :
  list_ascii_of_string (s1 +:+ s2)
  = (list_ascii_of_string s1 ++ list_ascii_of_string s2)%list.
Proof.
  induction s1 as [|ch s1 IH]; [reflexivity|].
  change (ch :: list_ascii_of_string (s1 +:+ s2)
          = ch :: (list_ascii_of_string s1 ++ list_ascii_of_string s2)%list).
  by rewrite IH.
Qed.

Lemma append_cancel_r (s1 s2 t : string) : s1 +:+ t = s2 +:+ t -> s1 = s2.
Proof.
  intros Heq. apply (f_equal list_ascii_of_string) in Heq.
  rewrite !list_ascii_of_append in Heq. apply app_inv_tail in Heq.
  rewrite <- (string_of_list_ascii_of_string s1),
          <- (string_of_list_ascii_of_string s2).
  by rewrite Heq.
Qed.

Lemma append_cancel_l (s t1 t2 : string) : s +:+ t1 = s +:+ t2 -> t1 = t2.
Proof. apply (inj (String.app s)). Qed.

Lemma contains_refl (s : string) : contains s s.
Proof. exists EmptyString, EmptyString. by rewrite append_empty_r. Qed.

Lemma contains_append_r (pre s sub : string) :
  contains s sub -> contains (pre +:+ s) sub.
Proof.
  intros (a & b & ->). exists (pre +:+ a), b. by rewrite append_assoc.
Qed.

Lemma contains_append_l (s post sub : string) :
  contains s sub -> contains (s +:+ post) sub.
Proof.
  intros (a & b & ->). exists a, (b +:+ post). by rewrite !append_assoc.
Qed.

(** ** [addCache] *)

Lemma addCache_ready (t : Time) (content : string) (w : World)
    (m : gmap Time string) :
  cache (self w) = Some m -> cMu (self w) = false ->
  addCache t content w
  = (Returned tt,
     mkWorld (mkLogger (Some (<[t := content]> m)) false (c (self w)))
             (events w)).
Proof.
  intros Hm Hmu. unfold addCache, bind, Lock. rewrite Hmu.
  unfold deferring, mapassign, Unlock. simpl. rewrite Hm. reflexivity.
Qed.

Lemma addCache_nil_map (t : Time) (content : string) (w : World) :
  cache (self w) = None -> cMu (self w) = false ->
  addCache t content w = (Panicked "assignment to entry in nil map", w).
Proof.
  intros Hm Hmu. unfold addCache, bind, Lock. rewrite Hmu.
  unfold deferring, mapassign, Unlock. simpl. rewrite Hm. simpl.
  destruct w as [[? ? ?] ?]. simpl in *. subst. reflexivity.
Qed.

Lemma addCache_held (t : Time) (content : string) (w : World) :
  cMu (self w) = true -> addCache t content w = (Blocked, w).
Proof.
  intros Hmu. unfold addCache, bind, Lock. rewrite Hmu. reflexivity.
Qed.

Lemma Error_unfold (args : list value) (e : Env) :
  Error args e
  = (addCache (timeNow e)
       (formatPlain " ERROR" (currentDate e) (currentTime e)
          (callerFields e).1 (callerFields e).2) >>
     emit (PkgError [VString (Sprint args)])).
Proof.
  unfold Error, callerFields.
  destruct (Caller e) as [[[pc file] line] ok]. reflexivity.
Qed.

(** ** The claims *)

(** C1: a call of [Error] on a logger whose cache is allocated makes one
    assignment to the cache, under the key [time.Now()], of the plain,
    uncoloured line [[ ERROR] date time (funcName:line)]; every other key
    keeps its entry, the line carries the tag [ ERROR], and the package-level
    [Error] is called with the concatenated message. *)
Theorem C1_Error_caches_plain_line (args : list value) (e : Env) (w : World)
    (m : gmap Time string) :
  cache (self w) = Some m -> cMu (self w) = false ->
  let content :=
    formatPlain " ERROR" (currentDate e) (currentTime e)
      (callerFields e).1 (callerFields e).2 in
  Error args e w
  = (Returned tt,
     mkWorld (mkLogger (Some (<[timeNow e := content]> m)) false (c (self w)))
             (events w ++ [PkgError [VString (Sprint args)]]))
  /\ <[timeNow e := content]> m !! timeNow e = Some content
  /\ (forall t : Time, t <> timeNow e ->
        <[timeNow e := content]> m !! t = m !! t)
  /\ contains content " ERROR".
Proof.
  intros Hm Hmu content. split; [|split; [|split]].
  - rewrite Error_unfold. unfold bind.
    rewrite (addCache_ready _ _ _ m Hm Hmu). reflexivity.
  - apply lookup_insert_eq.
  - intros t Ht. apply lookup_insert_ne. congruence.
  - exists "[", ("] " +:+ currentDate e +:+ " " +:+ currentTime e
               +:+ " (" +:+ (callerFields e).1 +:+ ":"
               +:+ (callerFields e).2 +:+ ")").
    reflexivity.
Qed.

Lemma C1_Error_caches_plain_line_witness :
  Error [VString "disk full"] env0 world0
  = (Returned tt,
     mkWorld
       (mkLogger
          (Some {[ mkTime 7 8 0 := "[ ERROR] 2025-01-02 10:11:12 (main.run:42)" ]})
          false None)
       [PkgError [VString "disk full"]]).
Proof.
  destruct (C1_Error_caches_plain_line [VString "disk full"] env0 world0 ∅
              eq_refl eq_refl) as [H _].
  rewrite H. reflexivity.
Defined.

Lemma written_cons (t : Time) (content : string) (rest : list (Time * string))
    (m : gmap Time string) :
  written ((t, content) :: rest) m = written rest (<[t := content]> m).
Proof. reflexivity. Qed.

Lemma written_app (ws1 ws2 : list (Time * string)) (m : gmap Time string) :
  written (ws1 ++ ws2) m = written ws2 (written ws1 m).
Proof. unfold written. apply foldl_app. Qed.

Lemma addAll_ready (ws : list (Time * string)) (w : World)
    (m : gmap Time string) :
  cache (self w) = Some m -> cMu (self w) = false ->
  addAll ws w
  = (Returned tt,
     mkWorld (mkLogger (Some (written ws m)) false (c (self w))) (events w)).
Proof.
  revert w m. induction ws as [|[t content] rest IH]; intros w m Hm Hmu.
  - destruct w as [[ch mu cfg] evs]. simpl in *. subst. reflexivity.
  - simpl. unfold bind. rewrite (addCache_ready _ _ _ m Hm Hmu).
    rewrite (IH _ (<[t := content]> m)); reflexivity.
Qed.

Lemma written_lookup (ws : list (Time * string)) (m : gmap Time string)
    (t : Time) :
  written ws m !! t
  = match lastWrite t ws with
    | Some content => Some content
    | None => m !! t
    end.
Proof.
  revert m. induction ws as [|[t' content] rest IH]; intros m; [reflexivity|].
  rewrite written_cons, IH. simpl.
  destruct (lastWrite t rest); [reflexivity|].
  destruct (decide (t' = t)) as [->|Hne].
  - apply lookup_insert_eq.
  - by apply lookup_insert_ne.
Qed.

Lemma written_dom (ws : list (Time * string)) (m : gmap Time string) :
  dom (written ws m) = dom m ∪ list_to_set ws.*1.
Proof.
  revert m. induction ws as [|[t content] rest IH]; intros m.
  - simpl. by rewrite (right_id_L ∅ (∪)).
  - rewrite written_cons, IH, dom_insert_L. simpl.
    by rewrite (comm_L (∪) {[t]} (dom m)), (assoc_L (∪)).
Qed.

Lemma lastWrite_fresh (t : Time) (ws : list (Time * string)) :
  t ∉ ws.*1 -> lastWrite t ws = None.
Proof.
  induction ws as [|[t' content] rest IH]; intros Hnot; [reflexivity|].
  simpl in *. apply not_elem_of_cons in Hnot as [Hne Hrest].
  rewrite IH by done. by rewrite decide_False.
Qed.

Lemma lastWrite_NoDup (t : Time) (content : string)
    (ws : list (Time * string)) :
  NoDup ws.*1 -> (t, content) ∈ ws -> lastWrite t ws = Some content.
Proof.
  induction ws as [|[t' c'] rest IH]; intros Hnd Hin.
  - by apply elem_of_nil in Hin.
  - simpl in Hnd. apply NoDup_cons in Hnd as [Hfresh Hnd].
    apply elem_of_cons in Hin as [Heq|Hin]; simpl.
    + inversion Heq; subst. rewrite lastWrite_fresh by done.
      by rewrite decide_True.
    + by rewrite IH.
Qed.

Lemma size_list_to_set_remove_dups (l : list Time) :
  size (list_to_set l : gset Time) = length (remove_dups l).
Proof.
  rewrite <- (size_list_to_set (C:=gset Time) (remove_dups l))
    by apply NoDup_remove_dups.
  f_equal. apply set_eq. intros x.
  by rewrite !elem_of_list_to_set, elem_of_remove_dups.
Qed.

(** C2: after any sequence of [addCache] calls on a logger whose cache is
    allocated, every call has returned, the keys of the cache are the
    earlier keys and the timestamps written, each key holds one entry, the
    content of the last write under it; a second write under a timestamp
    replaces the first, and writes under pairwise distinct timestamps are
    all present. *)
Theorem C2_addCache_last_writer_wins (ws : list (Time * string)) (w : World)
    (m : gmap Time string) :
  cache (self w) = Some m -> cMu (self w) = false ->
  addAll ws w
  = (Returned tt,
     mkWorld (mkLogger (Some (written ws m)) false (c (self w))) (events w))
  /\ dom (written ws m) = dom m ∪ list_to_set ws.*1
  /\ (forall t : Time,
        written ws m !! t
        = match lastWrite t ws with
          | Some content => Some content
          | None => m !! t
          end)
  /\ (forall (t : Time) (first second : string) (rest : list (Time * string)),
        t ∉ rest.*1 ->
        written (ws ++ (t, first) :: (t, second) :: rest) m !! t = Some second)
  /\ (NoDup ws.*1 ->
      forall (t : Time) (content : string),
        (t, content) ∈ ws -> written ws m !! t = Some content)
  /\ (m = ∅ -> size (written ws m) = length (remove_dups ws.*1)).
Proof.
  intros Hm Hmu.
  split; [by apply addAll_ready|].
  split; [apply written_dom|].
  split; [apply written_lookup|].
  split; [|split].
  - intros t first second rest Hfresh.
    rewrite written_app, !written_cons, written_lookup.
    rewrite lastWrite_fresh by done. apply lookup_insert_eq.
  - intros Hnd t content Hin.
    by rewrite written_lookup, (lastWrite_NoDup t content).
  - intros ->.
    rewrite <- size_dom, written_dom, dom_empty_L, (left_id_L ∅ (∪)).
    apply size_list_to_set_remove_dups.
Qed.

Lemma C2_addCache_last_writer_wins_witness :
  addAll [(mkTime 1 0 0, "a"); (mkTime 2 0 0, "b"); (mkTime 1 0 0, "c")] world0
  = (Returned tt,
     mkWorld
       (mkLogger (Some {[ mkTime 1 0 0 := "c"; mkTime 2 0 0 := "b" ]}) false None)
       []).
Proof.
  destruct (C2_addCache_last_writer_wins
              [(mkTime 1 0 0, "a"); (mkTime 2 0 0, "b"); (mkTime 1 0 0, "c")]
              world0 ∅ eq_refl eq_refl) as [H _].
  rewrite H. reflexivity.
Defined.

(** [Error] in each of the three states it can find the logger in. *)
Lemma Error_run (args : list value) (e : Env) (w : World) :
  Error args e w
  = match cMu (self w), cache (self w) with
    | true, _ => (Blocked, w)
    | false, None => (Panicked "assignment to entry in nil map", w)
    | false, Some m =>
        (Returned tt,
         mkWorld
           (mkLogger
              (Some (<[timeNow e :=
                       formatPlain " ERROR" (currentDate e) (currentTime e)
                         (callerFields e).1 (callerFields e).2]> m))
              false (c (self w)))
           (events w ++ [PkgError [VString (Sprint args)]]))
    end.
Proof.
  rewrite Error_unfold. unfold bind.
  destruct (cMu (self w)) eqn:Hmu.
  - by rewrite addCache_held.
  - destruct (cache (self w)) as [m|] eqn:Hm.
    + by rewrite (addCache_ready _ _ _ m).
    + by rewrite addCache_nil_map.
Qed.

(** ** The printing methods *)

Section Printing.
Context {sty : Styling}.

Lemma header_run (tag : string) (args : list value) (e : Env) (w : World) :
  (Println
     [VString
        (Sprintf "[%s] %s %s (%s:%s)"
           [tag; formatTextExt dim italic (getCurrentDate e);
            formatText underline (getCurrentTime e);
            formatText brightBlue (callerFields e).1;
            formatText bold (callerFields e).2])] >>
   if (0 <? length args)%nat
   then Println [VString "↳";
                 VString (formatTextExt bold brightYellow (Sprint args))]
   else ret tt) w
  = (Returned tt, andThen w (headerAndDetail tag args e)).
Proof.
  unfold bind, Println, emit, andThen, headerAndDetail. simpl.
  destruct args as [|a rest]; simpl.
  - reflexivity.
  - rewrite <- app_assoc. reflexivity.
Qed.

Lemma InfoC_run (args : list value) (e : Env) (w : World) :
  InfoC args e w = (Returned tt, andThen w (emitted MInfoC args e)).
Proof.
  unfold emitted. rewrite <- header_run. unfold InfoC, callerFields.
  destruct (Caller e) as [[[pc file] line] ok]. reflexivity.
Qed.

Lemma WarnC_run (args : list value) (e : Env) (w : World) :
  WarnC args e w = (Returned tt, andThen w (emitted MWarnC args e)).
Proof.
  unfold emitted. rewrite <- header_run. unfold WarnC, callerFields.
  destruct (Caller e) as [[[pc file] line] ok]. reflexivity.
Qed.

Lemma Debug_run (args : list value) (e : Env) (w : World) :
  Debug args e w = (Returned tt, andThen w (emitted MDebug args e)).
Proof.
  unfold emitted. rewrite <- header_run. unfold Debug, callerFields.
  destruct (Caller e) as [[[pc file] line] ok]. reflexivity.
Qed.

Lemma message_run (tag : string) (args : list value) (e : Env) (w : World) :
  Println
    [VString
       (Sprintf "[%s] %s %s %s"
          [tag; formatTextExt dim italic (getCurrentDate e);
           formatText underline (getCurrentTime e);
           formatText bold (Sprint args)])] w
  = (Returned tt,
     andThen w [Stdout (messageLine tag (Sprint args) e +:+ newline)]).
Proof.
  unfold Println, emit, andThen, messageLine, Sprintln,
    getCurrentDate, getCurrentTime.
  simpl. by rewrite append_empty_r.
Qed.

Lemma Info_run (args : list value) (e : Env) (w : World) :
  Info args e w = (Returned tt, andThen w (emitted MInfo args e)).
Proof. apply message_run. Qed.

Lemma Warn_run (args : list value) (e : Env) (w : World) :
  Warn args e w = (Returned tt, andThen w (emitted MWarn args e)).
Proof. apply message_run. Qed.

(** Every method but [Error] returns, leaves the logger as it was and adds
    its lines to standard output. *)
Lemma call_prints (m : method) (args : list value) (e : Env) (w : World) :
  m <> MError ->
  call m args e w = (Returned tt, andThen w (emitted m args e)).
Proof.
  intros Hm. destruct m; simpl; try congruence;
    auto using Info_run, InfoC_run, Warn_run, WarnC_run, Debug_run.
Qed.

End Printing.

(** C4: [InfoC] and [WarnC] always return after writing the header line;
    the detail line, the arrow followed by the message, comes second exactly
    when the call has operands, and nothing else is written. *)
Theorem C4_header_always_detail_iff_operands {sty : Styling}
    (args : list value) (e : Env) (w : World) :
  let detail :=
    if decide (args = [])
    then []
    else [Stdout (detailLine (Sprint args) +:+ newline)] in
  let info := formatTextExt bold brightGreen " INFO " in
  let warn := formatTextExt bold orange " WARN " in
  InfoC args e w
  = (Returned tt,
     mkWorld (self w)
       (events w ++ Stdout (headerLine info e +:+ newline) :: detail))
  /\ WarnC args e w
     = (Returned tt,
        mkWorld (self w)
          (events w ++ Stdout (headerLine warn e +:+ newline) :: detail))
  /\ existsb isDetail (emitted MInfoC args e) = negb (bool_decide (args = []))
  /\ existsb isDetail (emitted MWarnC args e) = negb (bool_decide (args = [])).
Proof.
  intros detail info warn. rewrite InfoC_run, WarnC_run.
  unfold andThen, emitted, headerAndDetail, detail.
  destruct args as [|a rest]; simpl; repeat split; reflexivity.
Qed.

(** ** The cache across calls *)

Section Calls.
Context {sty : Styling}.

Lemma call_keys (m : method) (args : list value) (e : Env) (w : World) :
  keys (self w) ⊆ keys (self (call m args e w).2).
Proof.
  destruct (decide (m = MError)) as [->|Hm].
  - simpl. rewrite Error_run. unfold keys.
    destruct (cMu (self w)); [done|].
    destruct (cache (self w)) as [cached|]; simpl; [|done].
    rewrite dom_insert_L. apply union_subseteq_r.
  - by rewrite call_prints.
Qed.

Lemma calls_keys (prog : list (method * list value * Env)) (w : World) :
  keys (self w) ⊆ keys (self (calls prog w).2).
Proof.
  revert w. induction prog as [|[[m args] e] rest IH]; intros w; [done|].
  simpl. unfold bind.
  pose proof (call_keys m args e w) as Hstep.
  destruct (call m args e w) as [[[]| |] w1]; simpl in *; [|done..].
  etrans; [exact Hstep|apply IH].
Qed.

Lemma calls_print_only (prog : list (method * list value * Env)) (w : World) :
  MError ∉ methodsOf prog ->
  (calls prog w).1 = Returned tt /\ self (calls prog w).2 = self w.
Proof.
  revert w. induction prog as [|[[m args] e] rest IH]; intros w Hno; [done|].
  unfold methodsOf in *. simpl in *.
  apply not_elem_of_cons in Hno as [Hm Hrest].
  unfold bind. rewrite call_prints by congruence.
  destruct (IH (andThen w (emitted m args e)) Hrest) as [Hr Hs].
  by rewrite Hr, Hs.
Qed.

(** On a ready logger every method returns, with its events behind those
    of the world. *)
Lemma call_ready (m : method) (args : list value) (e : Env) (w : World) :
  ready (self w) ->
  (call m args e w).1 = Returned tt
  /\ events (call m args e w).2 = events w ++ emitted m args e.
Proof.
  intros [[cached Hc] Hmu]. destruct (decide (m = MError)) as [->|Hm].
  - simpl. by rewrite Error_run, Hmu, Hc.
  - by rewrite call_prints.
Qed.

Lemma call_withConfig (cfg : option Config) (m : method) (args : list value)
    (e : Env) (w : World) :
  call m args e (withConfig cfg w)
  = ((call m args e w).1, withConfig cfg (call m args e w).2).
Proof.
  destruct (decide (m = MError)) as [->|Hm].
  - simpl. rewrite !Error_run. simpl.
    destruct (cMu (self w)); [done|].
    by destruct (cache (self w)).
  - by rewrite !call_prints.
Qed.

Lemma calls_withConfig (cfg : option Config)
    (prog : list (method * list value * Env)) (w : World) :
  calls prog (withConfig cfg w)
  = ((calls prog w).1, withConfig cfg (calls prog w).2).
Proof.
  revert w. induction prog as [|[[m args] e] rest IH]; intros w; [done|].
  simpl. unfold bind. rewrite call_withConfig.
  destruct (call m args e w) as [[[]| |] w1]; simpl; [apply IH|done..].
Qed.

End Calls.

(** C6: over any program of logging calls, from any state of the logger,
    every key of the cache before the program is a key after it; a call of
    [Info], [InfoC], [Warn], [WarnC] or [Debug] returns and leaves the logger,
    its cache included, as it found it, so that a call that changes the
    cache is a call of [Error]. *)
Theorem C6_cache_never_shrinks {sty : Styling}
    (prog : list (method * list value * Env)) (w : World) :
  keys (self w) ⊆ keys (self (calls prog w).2)
  /\ (MError ∉ methodsOf prog ->
      (calls prog w).1 = Returned tt /\ self (calls prog w).2 = self w)
  /\ (forall (m : method) (args : list value) (e : Env),
        cache (self (call m args e w).2) <> cache (self w) -> m = MError).
Proof.
  split; [apply calls_keys|]. split; [apply calls_print_only|].
  intros m args e Hchanged.
  destruct (decide (m = MError)) as [|Hm]; [done|].
  by rewrite call_prints in Hchanged.
Qed.

Lemma C6_cache_never_shrinks_witness :
  let prog :=
    [(MInfo, [VString "a"], env0); (MInfoC, [], env0); (MWarn, [VInt 7], env0);
     (MWarnC, [VNil], env0); (MDebug, [VBool true], env0)] in
  let w := (Error [VString "disk full"] env0 world0).2 in
  self (@calls ansi prog w).2 = self w
  /\ keys (self w) = {[ mkTime 7 8 0 ]}.
Proof.
  intros prog w.
  destruct (@C6_cache_never_shrinks ansi prog w) as (_ & Hsame & _).
  split; [|reflexivity].
  apply Hsame. unfold methodsOf, prog. simpl.
  rewrite !not_elem_of_cons. repeat split; try discriminate.
  apply not_elem_of_nil.
Defined.

(** C7: the configuration is inert.  Run from two worlds that differ in
    nothing but the configuration pointer of the logger (the flag set, the
    flag clear, or no configuration), a program of logging calls ends the same
    way, with the same events and the same cache. *)
Theorem C7_debug_flag_inert {sty : Styling}
    (prog : list (method * list value * Env)) (w : World)
    (cfg1 cfg2 : option Config) :
  let r1 := calls prog (withConfig cfg1 w) in
  let r2 := calls prog (withConfig cfg2 w) in
  r1.1 = r2.1
  /\ events r1.2 = events r2.2
  /\ cache (self r1.2) = cache (self r2.2)
  /\ cMu (self r1.2) = cMu (self r2.2).
Proof.
  intros r1 r2. unfold r1, r2. rewrite !calls_withConfig. done.
Qed.

(** C9: the line that [Error] caches does not depend on the operands: with
    the same surroundings and the same logger, two calls with any two
    operand lists leave the same cache. *)
Theorem C9_cached_line_ignores_operands (args1 args2 : list value) (e : Env)
    (w : World) :
  cache (self (Error args1 e w).2) = cache (self (Error args2 e w).2)
  /\ (Error args1 e w).1 = (Error args2 e w).1.
Proof.
  rewrite !Error_run.
  destruct (cMu (self w)); [done|]. by destruct (cache (self w)).
Qed.

(** C10: for every configuration pointer, [nil] included, [New] returns a
    logger whose cache is an allocated, empty map, whose mutex is free and
    which holds the pointer; the first [Error] call on it returns and leaves
    the one entry it wrote. *)
Theorem C10_New_allocates_empty_cache (cfg : option Config)
    (args : list value) (e : Env) :
  cache (New cfg) = Some ∅
  /\ keys (New cfg) = ∅
  /\ cMu (New cfg) = false
  /\ c (New cfg) = cfg
  /\ Error args e (mkWorld (New cfg) [])
     = (Returned tt,
        mkWorld
          (mkLogger
             (Some {[ timeNow e :=
                        formatPlain " ERROR" (currentDate e) (currentTime e)
                          (callerFields e).1 (callerFields e).2 ]})
             false cfg)
          [PkgError [VString (Sprint args)]]).
Proof.
  repeat split. rewrite Error_run. reflexivity.
Qed.

(** ** The message body *)

Lemma doPrint_join (argNum : nat) (prev : value) (a : list value) :
  doPrint (S argNum) (isString prev) a
  = match a with
    | [] => EmptyString
    | y :: _ =>
        if negb (isString prev) && negb (isString y)
        then " " else EmptyString
    end +:+ joinOperands a.
Proof.
  revert argNum prev. induction a as [|x rest IH]; intros argNum prev.
  - reflexivity.
  - change (doPrint (S argNum) (isString prev) (x :: rest))
      with ((if negb (isString x) && negb (isString prev)
             then " " else EmptyString)
            +:+ printArg x +:+ doPrint (S (S argNum)) (isString x) rest).
    rewrite IH. by rewrite (andb_comm (negb (isString x))).
Qed.

Lemma Sprint_join (a : list value) : Sprint a = joinOperands a.
Proof.
  destruct a as [|x rest]; [reflexivity|].
  unfold Sprint.
  change (doPrint 0 false (x :: rest))
    with (EmptyString +:+ printArg x +:+ doPrint 1 (isString x) rest).
  by rewrite doPrint_join.
Qed.

Lemma Sprint_strings (ss : list string) :
  Sprint (VString <$> ss) = concatenation ss.
Proof.
  rewrite Sprint_join. induction ss as [|s rest IH]; [reflexivity|].
  rewrite fmap_cons.
  change (joinOperands (VString s :: (VString <$> rest)))
    with (s +:+ match VString <$> rest with
                | [] => EmptyString
                | _ :: _ => EmptyString
                end +:+ joinOperands (VString <$> rest)).
  rewrite IH. by destruct rest.
Qed.

(** C8: every logging method makes its message body with [Sprint], which
    puts the renderings of the operands one after the other and a space only
    between two neighbours that are both not strings, so that string operands
    are concatenated with nothing in between; a call on a ready logger
    returns with the events of the method for that body.
    [Info("build", " ", "ok")] has the body [build ok], and with styling
    functions that keep their text the line it writes contains [ INFO ] and
    [build ok]. *)
Theorem C8_operands_concatenated {sty : Styling} (m : method)
    (args : list value) (ss : list string) (e : Env) (w : World) :
  keepsText sty -> ready (self w) ->
  Sprint args = joinOperands args
  /\ Sprint (VString <$> ss) = concatenation ss
  /\ (call m args e w).1 = Returned tt
  /\ events (call m args e w).2 = events w ++ emitted m args e
  /\ Sprint [VString "build"; VString " "; VString "ok"] = "build ok"
  /\ (exists line : string,
        Info [VString "build"; VString " "; VString "ok"] e w
        = (Returned tt, andThen w [Stdout line])
        /\ line
            = messageLine (formatTextExt bold brightGreen " INFO ")
                "build ok" e +:+ newline
        /\ contains line " INFO "
        /\ contains line "build ok").
Proof.
  intros [Hkeep HkeepExt] Hready.
  split; [apply Sprint_join|]. split; [apply Sprint_strings|].
  destruct (call_ready m args e w Hready) as [Hret Hev].
  split; [exact Hret|]. split; [exact Hev|]. split; [reflexivity|].
  eexists. split; [apply Info_run|]. split; [reflexivity|].
  unfold messageLine. split.
  - apply contains_append_l, contains_append_r, contains_append_l.
    apply HkeepExt.
  - apply contains_append_l. do 7 apply contains_append_r. apply Hkeep.
Qed.

Lemma ansi_keepsText : keepsText ansi.
Proof.
  split.
  - intros style text. exists style, (esc "0"). reflexivity.
  - intros style colour text. exists (style +:+ colour), (esc "0").
    simpl. by rewrite append_assoc.
Qed.

Lemma C8_operands_concatenated_witness :
  @Info ansi [VString "build"; VString " "; VString "ok"] env0 world0
  = (Returned tt,
     andThen world0
       [Stdout
          (@messageLine ansi (esc "1" +:+ esc "92" +:+ " INFO " +:+ esc "0")
             "build ok" env0 +:+ newline)])
  /\ (@call ansi MWarnC [VInt 3; VInt 4; VString "x"] env0 world0).1
     = Returned tt.
Proof.
  destruct (@C8_operands_concatenated ansi MWarnC
              [VInt 3; VInt 4; VString "x"] [] env0 world0 ansi_keepsText
              (conj (mk_is_Some _ _ eq_refl) eq_refl))
    as (_ & _ & Hret & _ & _ & line & Hrun & Hline & _).
  split; [|exact Hret].
  rewrite Hrun, Hline. reflexivity.
Defined.

(** ** The caller *)

(** Closes a goal from [H : x ∈ [a; b; ...]] when [x] is a constructor
    other than the ones listed. *)
Ltac not_listed H :=
  exfalso;
  repeat (apply elem_of_cons in H as [H|H]; [discriminate H|]);
  by apply elem_of_nil in H.

Section CallerRendering.
Context {sty : Styling}.

Lemma messageLine_caller (tag msg : string) (e1 e2 : Env) :
  sameButCaller e1 e2 -> messageLine tag msg e1 = messageLine tag msg e2.
Proof. intros (Hd & Ht & _). unfold messageLine. by rewrite Hd, Ht. Qed.

(** With the same date, time and function name, two equal header lines
    carry the same line number. *)
Lemma headerLine_line (tag : string) (e1 e2 : Env) :
  tellsApart sty ->
  currentDate e1 = currentDate e2 -> currentTime e1 = currentTime e2 ->
  (callerFields e1).1 = (callerFields e2).1 ->
  headerLine tag e1 = headerLine tag e2 ->
  (callerFields e1).2 = (callerFields e2).2.
Proof.
  intros Happart Hd Ht Hname Heq. unfold headerLine in Heq.
  rewrite Hd, Ht, Hname in Heq.
  do 9 apply append_cancel_l in Heq.
  apply append_cancel_r in Heq. by apply Happart in Heq.
Qed.

Lemma header_differs (tag : string) (w : World) :
  tellsApart sty ->
  (Returned tt, andThen w (headerAndDetail tag [] env0))
  <> (Returned tt, andThen w (headerAndDetail tag [] env1)).
Proof.
  intros Happart Heq. unfold andThen, headerAndDetail in Heq.
  assert (headerLine tag env0 +:+ newline = headerLine tag env1 +:+ newline)
    as Hline.
  { apply (f_equal (fun r => events r.2)) in Heq. simpl in Heq.
    apply app_inv_head in Heq. congruence. }
  apply append_cancel_r in Hline.
  apply (headerLine_line tag env0 env1 Happart) in Hline; done.
Qed.

Lemma Info_Warn_ignore_caller (m : method) :
  m = MInfo \/ m = MWarn -> ~ rendersCaller m.
Proof.
  intros Hm (args & e1 & e2 & w & Hsame & Hdiff). apply Hdiff.
  rewrite !call_prints by (destruct Hm; congruence).
  destruct Hm as [-> | ->]; simpl;
    by rewrite (messageLine_caller _ _ e1 e2).
Qed.

Lemma Error_renders_caller : rendersCaller MError.
Proof.
  exists [], env0, env1, world0. split; [done|].
  simpl. rewrite !Error_run. simpl. intros Heq.
  apply (f_equal (fun r => (self r.2).(cache) ≫= (.!! mkTime 7 8 0))) in Heq.
  simpl in Heq. rewrite !lookup_insert_eq in Heq. discriminate Heq.
Qed.

Lemma header_methods_render_caller (m : method) :
  tellsApart sty -> m = MInfoC \/ m = MWarnC \/ m = MDebug ->
  rendersCaller m.
Proof.
  intros Happart Hm. exists [], env0, env1, world0. split; [done|].
  rewrite !call_prints by (destruct Hm as [->|[->| ->]]; discriminate).
  destruct Hm as [->|[->| ->]]; by apply header_differs.
Qed.

End CallerRendering.

(** C3, as the code has it: with styling functions that tell different
    texts apart, the methods that render the caller (a call of them can end
    differently for two callers, all else being equal) are [Error], [InfoC],
    [WarnC] and [Debug]; [Info] and [Warn] never do. *)
Theorem C3_caller_rendered_by_Error_InfoC_WarnC_Debug {sty : Styling}
    (m : method) :
  tellsApart sty ->
  rendersCaller m <-> m ∈ [MError; MInfoC; MWarnC; MDebug].
Proof.
  intros Happart. split.
  - intros Hrenders.
    destruct m; try (repeat constructor; fail);
      exfalso; revert Hrenders; apply Info_Warn_ignore_caller; auto.
  - intros Hin. destruct m.
    + apply Error_renders_caller.
    + not_listed Hin.
    + apply header_methods_render_caller; auto.
    + not_listed Hin.
    + apply header_methods_render_caller; auto.
    + apply header_methods_render_caller; auto.
Qed.

Lemma ansi_tellsApart : tellsApart ansi.
Proof.
  intros style text1 text2 Heq. simpl in Heq.
  apply append_cancel_l in Heq. by apply append_cancel_r in Heq.
Qed.

Lemma C3_caller_rendered_by_Error_InfoC_WarnC_Debug_witness :
  @rendersCaller ansi MWarnC /\ ~ @rendersCaller ansi MWarn.
Proof.
  split.
  - apply (@C3_caller_rendered_by_Error_InfoC_WarnC_Debug ansi MWarnC
             ansi_tellsApart).
    repeat constructor.
  - intros Hrenders.
    apply (@C3_caller_rendered_by_Error_InfoC_WarnC_Debug ansi MWarn
             ansi_tellsApart) in Hrenders.
    not_listed Hrenders.
Defined.

(** C3, as it is worded, fails on [Debug]: it is none of [Error], [InfoC]
    and [WarnC], and its header line shows the line number of the caller. *)
Lemma C3_Debug_renders_caller :
  ~ (forall m : method,
       @rendersCaller ansi m <-> m ∈ [MError; MInfoC; MWarnC]).
Proof.
  intros Hclaim.
  assert (@rendersCaller ansi MDebug) as Hdebug.
  { exists [], env0, env1, world0. split; [done|].
    vm_compute. intros Heq. discriminate Heq. }
  apply Hclaim in Hdebug.
  not_listed Hdebug.
Qed.

Lemma callerFields_unresolved (e : Env) :
  callerFrame e = None -> callerFields e = (EmptyString, "0").
Proof. intros Hnone. unfold callerFields, Caller. by rewrite Hnone. Qed.

(** C5, as the code has it: when the runtime recovers no frame for the
    caller, the function name is rendered as the empty string and the line
    number as [0]; every logging call on a ready logger returns, with the
    events of its method for these two fields, and [Error] caches the plain
    line with them. *)
Theorem C5_unresolved_caller_blank_name_line_zero {sty : Styling}
    (m : method) (args : list value) (e : Env) (w : World)
    (cached : gmap Time string) :
  callerFrame e = None ->
  cache (self w) = Some cached -> cMu (self w) = false ->
  callerFields e = (EmptyString, "0")
  /\ (call m args e w).1 = Returned tt
  /\ events (call m args e w).2 = events w ++ emitted m args e
  /\ (forall tag : string,
        headerLine tag e
        = "[" +:+ tag +:+ "] " +:+ formatTextExt dim italic (currentDate e)
          +:+ " " +:+ formatText underline (currentTime e)
          +:+ " (" +:+ formatText brightBlue EmptyString
          +:+ ":" +:+ formatText bold "0" +:+ ")")
  /\ cache (self (Error args e w).2)
     = Some (<[timeNow e :=
                 formatPlain " ERROR" (currentDate e) (currentTime e)
                   EmptyString "0"]> cached).
Proof.
  intros Hnone Hc Hmu.
  pose proof (callerFields_unresolved e Hnone) as Hfields.
  split; [exact Hfields|].
  destruct (call_ready m args e w) as [Hret Hev]; [by split; [exists cached|]|].
  split; [exact Hret|]. split; [exact Hev|]. split.
  - intros tag. unfold headerLine. by rewrite Hfields.
  - rewrite Error_run, Hmu, Hc, Hfields. reflexivity.
Qed.

Lemma C5_unresolved_caller_blank_name_line_zero_witness :
  (@call ansi MDebug [VString "x"] envNoCaller world0).1 = Returned tt
  /\ cache (self (Error [VString "x"] envNoCaller world0).2)
     = Some {[ mkTime 7 8 0 := "[ ERROR] 2025-01-02 10:11:12 (:0)" ]}.
Proof.
  destruct (@C5_unresolved_caller_blank_name_line_zero ansi MDebug
              [VString "x"] envNoCaller world0 ∅ eq_refl eq_refl eq_refl)
    as (_ & Hret & _ & _ & Hcache).
  split; [exact Hret|]. rewrite Hcache. reflexivity.
Defined.

(** C5, as it is worded, fails on the line number: with no frame recovered
    the line field is not the empty string but [0], and the line that
    [Error] caches ends in [(:0)]. *)
Lemma C5_line_field_is_zero :
  callerFrame envNoCaller = None
  /\ callerFields envNoCaller <> (EmptyString, EmptyString)
  /\ Error [VString "disk full"] envNoCaller world0
     = (Returned tt,
        mkWorld
          (mkLogger
             (Some {[ mkTime 7 8 0 := "[ ERROR] 2025-01-02 10:11:12 (:0)" ]})
             false None)
          [PkgError [VString "disk full"]])
  /\ ~ (forall e : Env,
          callerFrame e = None ->
          callerFields e = (EmptyString, EmptyString)).
Proof.
  split; [reflexivity|]. split; [discriminate|]. split; [reflexivity|].
  intros Hclaim. specialize (Hclaim envNoCaller eq_refl). discriminate Hclaim.
Qed.

(** ** Further properties of [cache.go] and [logger.go] *)

Section Programs.
Context {sty : Styling}.

Lemma errorWrites_cons (m : method) (args : list value) (e : Env)
    (rest : list (method * list value * Env)) :
  errorWrites ((m, args, e) :: rest)
  = errorWrites [(m, args, e)] ++ errorWrites rest.
Proof. by destruct m. Qed.

Lemma errorWrites_length (prog : list (method * list value * Env)) :
  length (errorWrites prog) = countErrors prog.
Proof.
  unfold countErrors, methodsOf.
  induction prog as [|[[m args] e] rest IH]; [reflexivity|].
  rewrite fmap_cons, filter_cons. simpl.
  destruct m; simpl; by rewrite ?IH.
Qed.

(** One call on a ready logger. *)
Lemma call_step (m : method) (args : list value) (e : Env) (w : World)
    (cached : gmap Time string) :
  cache (self w) = Some cached -> cMu (self w) = false ->
  call m args e w
  = (Returned tt,
     mkWorld
       (mkLogger (Some (written (errorWrites [(m, args, e)]) cached)) false
          (c (self w)))
       (events w ++ emitted m args e)).
Proof.
  intros Hc Hmu. destruct (decide (m = MError)) as [->|Hm].
  - simpl. by rewrite Error_run, Hmu, Hc.
  - rewrite call_prints by done.
    destruct w as [[ch mu cfg] evs]. simpl in *. subst.
    by destruct m.
Qed.

(** A program on a ready logger. *)
Lemma calls_steps (prog : list (method * list value * Env)) (w : World)
    (cached : gmap Time string) :
  cache (self w) = Some cached -> cMu (self w) = false ->
  calls prog w
  = (Returned tt,
     mkWorld
       (mkLogger (Some (written (errorWrites prog) cached)) false (c (self w)))
       (events w ++ emittedAll prog)).
Proof.
  revert w cached.
  induction prog as [|[[m args] e] rest IH]; intros w cached Hc Hmu.
  - destruct w as [[ch mu cfg] evs]. simpl in *. subst.
    by rewrite app_nil_r.
  - simpl calls. unfold bind. rewrite (call_step m args e w cached Hc Hmu).
    rewrite (IH _ (written (errorWrites [(m, args, e)]) cached)) by done.
    rewrite (errorWrites_cons m args e rest), written_app.
    change (emittedAll ((m, args, e) :: rest))
      with (emitted m args e ++ emittedAll rest).
    cbn [self events c]. by rewrite <- app_assoc.
Qed.

(** What a call leaves alone in every state of the logger. *)
Lemma call_frame (m : method) (args : list value) (e : Env) (w : World) :
  c (self (call m args e w).2) = c (self w)
  /\ cMu (self (call m args e w).2) = cMu (self w)
  /\ (is_Some (cache (self (call m args e w).2)) <-> is_Some (cache (self w))).
Proof.
  destruct (decide (m = MError)) as [->|Hm].
  - simpl. rewrite Error_run.
    destruct (cMu (self w)) eqn:Hmu; [done|].
    destruct (cache (self w)) as [cached|] eqn:Hc; simpl; [|by rewrite Hc, Hmu].
    repeat split; eauto.
  - by rewrite call_prints.
Qed.

End Programs.

(** X1: [Debug] always returns after writing the header line with the tag
    [ DBUG ] and the caller; the arrow line with the message comes second
    exactly when the call has operands; the logger is left as it was. *)
Theorem X1_Debug_header_always_detail_iff_operands {sty : Styling}
    (args : list value) (e : Env) (w : World) :
  let detail :=
    if decide (args = [])
    then []
    else [Stdout (detailLine (Sprint args) +:+ newline)] in
  Debug args e w
  = (Returned tt,
     mkWorld (self w)
       (events w
        ++ Stdout (headerLine (formatTextExt bold magenta " DBUG ") e
                   +:+ newline) :: detail))
  /\ existsb isDetail (emitted MDebug args e) = negb (bool_decide (args = [])).
Proof.
  intros detail. rewrite Debug_run.
  unfold andThen, emitted, headerAndDetail, detail.
  destruct args as [|a rest]; simpl; split; reflexivity.
Qed.

(** X2: called with the mutex free, [addCache] leaves it free on both of
    its paths, keeps the configuration pointer and writes nothing; it returns
    exactly when the map is allocated, and on a [nil] map it panics and the
    map stays [nil]. *)
Theorem X2_addCache_releases_mutex (t : Time) (content : string) (w : World) :
  cMu (self w) = false ->
  cMu (self (addCache t content w).2) = false
  /\ c (self (addCache t content w).2) = c (self w)
  /\ events (addCache t content w).2 = events w
  /\ ((addCache t content w).1 = Returned tt <-> is_Some (cache (self w)))
  /\ (cache (self w) = None ->
      (addCache t content w).1 = Panicked "assignment to entry in nil map"
      /\ cache (self (addCache t content w).2) = None).
Proof.
  intros Hmu. destruct (cache (self w)) as [cached|] eqn:Hc.
  - rewrite (addCache_ready t content w cached Hc Hmu). simpl.
    repeat split; eauto; discriminate.
  - rewrite (addCache_nil_map t content w Hc Hmu). simpl.
    repeat split; done.
Qed.

Lemma X2_addCache_releases_mutex_witness :
  addCache (mkTime 1 0 0) "line" (mkWorld zeroLogger [])
  = (Panicked "assignment to entry in nil map", mkWorld zeroLogger []).
Proof.
  destruct (X2_addCache_releases_mutex (mkTime 1 0 0) "line"
              (mkWorld zeroLogger []) eq_refl)
    as (Hmu & Hcfg & Hev & _ & Hnil).
  destruct (Hnil eq_refl) as [Hpanic Hcache].
  destruct (addCache (mkTime 1 0 0) "line" (mkWorld zeroLogger []))
    as [r [[ch mu cfg] evs]].
  simpl in *. by subst.
Defined.

(** X3: on a logger whose map is [nil] and whose mutex is free, the zero
    value of the struct among them, [Error] panics on the cache write: the
    package-level [Error] is not called, nothing is written, and the logger
    is as before, the mutex free again. *)
Theorem X3_Error_panics_on_nil_map (args : list value) (e : Env)
    (cfg : option Config) (evs : list event) :
  Error args e (mkWorld (mkLogger None false cfg) evs)
  = (Panicked "assignment to entry in nil map",
     mkWorld (mkLogger None false cfg) evs).
Proof. by rewrite Error_run. Qed.

(** X4: a program of logging calls on a logger fresh from [New] always
    returns; afterwards the map is allocated, the mutex is free, the
    configuration pointer is the one given to [New], and the keys of the
    cache are the instants of the [Error] calls. *)
Theorem X4_New_logger_never_panics {sty : Styling} (cfg : option Config)
    (prog : list (method * list value * Env)) :
  let after := calls prog (mkWorld (New cfg) []) in
  after.1 = Returned tt
  /\ ready (self after.2)
  /\ c (self after.2) = cfg
  /\ keys (self after.2) = list_to_set (errorWrites prog).*1
  /\ events after.2 = emittedAll prog.
Proof.
  intros after. unfold after.
  rewrite (calls_steps prog (mkWorld (New cfg) []) ∅) by done.
  unfold ready, keys. simpl. repeat split; eauto.
  by rewrite written_dom, dom_empty_L, (left_id_L ∅ (∪)).
Qed.

(** X5: after a program on a ready logger, the events are those of its
    calls in order, and the cache holds under every instant the line of the
    last [Error] call made at that instant, or what it held before when no
    [Error] call was made then. *)
Theorem X5_program_cache_is_last_Error_line {sty : Styling}
    (prog : list (method * list value * Env)) (w : World)
    (cached : gmap Time string) :
  cache (self w) = Some cached -> cMu (self w) = false ->
  exists after : gmap Time string,
    calls prog w
    = (Returned tt,
       mkWorld (mkLogger (Some after) false (c (self w)))
               (events w ++ emittedAll prog))
    /\ forall t : Time,
         after !! t
         = match lastWrite t (errorWrites prog) with
           | Some line => Some line
           | None => cached !! t
           end.
Proof.
  intros Hc Hmu. exists (written (errorWrites prog) cached).
  split; [by apply calls_steps|]. intros t. apply written_lookup.
Qed.

Lemma X5_program_cache_is_last_Error_line_witness :
  exists after : gmap Time string,
    (@calls ansi
       [(MError, [VString "a"], env0); (MInfo, [VString "b"], env0);
        (MError, [VString "c"], env1)] world0).2.(self).(cache) = Some after
    /\ after !! mkTime 7 8 0
       = Some "[ ERROR] 2025-01-02 10:11:12 (main.run:43)".
Proof.
  destruct (@X5_program_cache_is_last_Error_line ansi
              [(MError, [VString "a"], env0); (MInfo, [VString "b"], env0);
               (MError, [VString "c"], env1)] world0 ∅ eq_refl eq_refl)
    as (after & Hrun & Hlookup).
  exists after. rewrite Hrun. split; [reflexivity|].
  rewrite Hlookup. reflexivity.
Defined.

Lemma written_size_le (ws : list (Time * string)) (m : gmap Time string) :
  (size (written ws m) <= size m + length ws)%nat.
Proof.
  revert m. induction ws as [|[t content] rest IH]; intros m.
  - simpl. lia.
  - rewrite written_cons. etrans; [apply IH|].
    rewrite map_size_insert. simpl. destruct (m !! t); simpl; lia.
Qed.

Lemma written_size_fresh (ws : list (Time * string)) (m : gmap Time string) :
  NoDup ws.*1 -> (forall t : Time, t ∈ ws.*1 -> m !! t = None) ->
  size (written ws m) = (size m + length ws)%nat.
Proof.
  revert m. induction ws as [|[t content] rest IH]; intros m Hnd Hfresh.
  - simpl. lia.
  - simpl in Hnd. apply NoDup_cons in Hnd as [Hnot Hnd].
    rewrite written_cons, IH; [|done|].
    + rewrite map_size_insert_None; [simpl; lia|].
      apply Hfresh. simpl. left.
    + intros t' Hin. rewrite lookup_insert_ne.
      * apply Hfresh. simpl. by right.
      * intros ->. by apply Hnot.
Qed.

(** X6: two [Error] calls that read the same instant from the clock leave
    one entry under it, the line of the second call; the line of the first
    is lost from the cache, and both messages reach the package-level
    [Error]. *)
Theorem X6_Error_same_instant_overwrites (args1 args2 : list value)
    (e1 e2 : Env) (w : World) (cached : gmap Time string) :
  cache (self w) = Some cached -> cMu (self w) = false ->
  timeNow e1 = timeNow e2 ->
  (Error args1 e1 >> Error args2 e2) w
  = (Returned tt,
     mkWorld
       (mkLogger (Some (<[timeNow e2 := errorLine e2]> cached)) false
          (c (self w)))
       (events w ++ [PkgError [VString (Sprint args1)];
                     PkgError [VString (Sprint args2)]]))
  /\ (cached !! timeNow e2 = None ->
      size (<[timeNow e2 := errorLine e2]> cached) = S (size cached)).
Proof.
  intros Hc Hmu Hsame. split; [|apply map_size_insert_None].
  unfold bind. rewrite (Error_run args1), Hmu, Hc.
  rewrite Error_run. simpl. rewrite Hsame, insert_insert_eq.
  by rewrite <- app_assoc.
Qed.

Lemma X6_Error_same_instant_overwrites_witness :
  (Error [VString "first"] env0 >> Error [VString "second"] env1) world0
  = (Returned tt,
     mkWorld
       (mkLogger
          (Some {[ mkTime 7 8 0 := "[ ERROR] 2025-01-02 10:11:12 (main.run:43)" ]})
          false None)
       [PkgError [VString "first"]; PkgError [VString "second"]]).
Proof.
  destruct (X6_Error_same_instant_overwrites
              [VString "first"] [VString "second"] env0 env1 world0 ∅
              eq_refl eq_refl eq_refl) as [Hrun _].
  rewrite Hrun. reflexivity.
Defined.

(** X7: a program on a ready logger adds at most one entry to the cache for
    each of its [Error] calls; it adds exactly one for each when the instants
    of these calls are pairwise distinct and not yet keys of the cache. *)
Theorem X7_cache_grows_by_at_most_the_Error_calls {sty : Styling}
    (prog : list (method * list value * Env)) (w : World)
    (cached : gmap Time string) :
  cache (self w) = Some cached -> cMu (self w) = false ->
  exists after : gmap Time string,
    cache (self (calls prog w).2) = Some after
    /\ (size cached <= size after <= size cached + countErrors prog)%nat
    /\ (NoDup (errorWrites prog).*1 ->
        (forall t : Time, t ∈ (errorWrites prog).*1 -> cached !! t = None) ->
        size after = (size cached + countErrors prog)%nat).
Proof.
  intros Hc Hmu. exists (written (errorWrites prog) cached).
  rewrite (calls_steps prog w cached Hc Hmu). split; [reflexivity|].
  rewrite <- errorWrites_length. split; [split|].
  - rewrite <- !size_dom. apply subseteq_size.
    rewrite written_dom. apply union_subseteq_l.
  - apply written_size_le.
  - apply written_size_fresh.
Qed.

Lemma X7_cache_grows_by_at_most_the_Error_calls_witness :
  exists after : gmap Time string,
    cache (self (@calls ansi
                   [(MError, [], env0); (MDebug, [], env0); (MError, [], env1)]
                   world0).2) = Some after
    /\ (size after <= 2)%nat.
Proof.
  destruct (@X7_cache_grows_by_at_most_the_Error_calls ansi
              [(MError, [], env0); (MDebug, [], env0); (MError, [], env1)]
              world0 ∅ eq_refl eq_refl) as (after & Hcache & [_ Hle] & _).
  exists after. split; [exact Hcache|exact Hle].
Defined.

(** X8: on a logger whose map is [nil], a program runs up to its first
    [Error] call and panics there: the calls before it have written their
    lines, the calls after it are not made, and the logger is as before. *)
Theorem X8_first_Error_on_nil_map_stops_the_program {sty : Styling}
    (before after : list (method * list value * Env)) (args : list value)
    (e : Env) (w : World) :
  cache (self w) = None -> cMu (self w) = false ->
  MError ∉ methodsOf before ->
  calls (before ++ (MError, args, e) :: after) w
  = (Panicked "assignment to entry in nil map",
     mkWorld (self w) (events w ++ emittedAll before)).
Proof.
  revert w. induction before as [|[[m margs] me] rest IH];
    intros w Hc Hmu Hno.
  - simpl. unfold bind. rewrite Error_run, Hmu, Hc.
    destruct w as [l evs]. simpl. by rewrite app_nil_r.
  - unfold methodsOf in Hno. rewrite fmap_cons in Hno.
    apply not_elem_of_cons in Hno as [Hm Hrest]. simpl in Hm.
    change (calls (((m, margs, me) :: rest) ++ (MError, args, e) :: after) w)
      with ((call m margs me >> calls (rest ++ (MError, args, e) :: after)) w).
    unfold bind. rewrite call_prints by congruence.
    rewrite IH by done.
    change (emittedAll ((m, margs, me) :: rest))
      with (emitted m margs me ++ emittedAll rest).
    unfold andThen. cbn [self events]. by rewrite <- app_assoc.
Qed.

Lemma X8_first_Error_on_nil_map_stops_the_program_witness :
  (@calls ansi
     ([(MInfo, [VString "up"], env0)]
      ++ (MError, [VString "down"], env0) :: [(MWarn, [VString "late"], env0)])
     (mkWorld zeroLogger [])).1
  = Panicked "assignment to entry in nil map".
Proof.
  rewrite (@X8_first_Error_on_nil_map_stops_the_program ansi
             [(MInfo, [VString "up"], env0)]
             [(MWarn, [VString "late"], env0)] [VString "down"] env0
             (mkWorld zeroLogger []) eq_refl eq_refl).
  - reflexivity.
  - unfold methodsOf. simpl. rewrite not_elem_of_cons.
    split; [discriminate|apply not_elem_of_nil].
Defined.

(** X9: the cached line tells line numbers apart: at the same date and
    time and in the same function, callers at different lines give
    different lines in the cache. *)
Theorem X9_Error_line_tells_line_numbers_apart (e1 e2 : Env) :
  currentDate e1 = currentDate e2 -> currentTime e1 = currentTime e2 ->
  (callerFields e1).1 = (callerFields e2).1 ->
  callerLine e1 <> callerLine e2 ->
  errorLine e1 <> errorLine e2.
Proof.
  intros Hd Ht Hname Hline Heq. apply Hline.
  unfold errorLine, formatPlain in Heq. rewrite Hd, Ht, Hname in Heq.
  do 9 apply append_cancel_l in Heq. apply append_cancel_r in Heq.
  unfold callerFields, callerLine in *.
  destruct (Caller e1) as [[[pc1 file1] line1] ok1].
  destruct (Caller e2) as [[[pc2 file2] line2] ok2].
  simpl in *. by apply (inj pretty) in Heq.
Qed.

Lemma X9_Error_line_tells_line_numbers_apart_witness :
  errorLine env0 <> errorLine env1.
Proof.
  apply X9_Error_line_tells_line_numbers_apart;
    [reflexivity|reflexivity|reflexivity|discriminate].
Defined.

(** X11: in every state of the logger, a program of logging calls leaves
    the configuration pointer and the state of the mutex as it found them,
    and neither allocates a [nil] map nor makes the map [nil]. *)
Theorem X11_calls_keep_config_and_mutex {sty : Styling}
    (prog : list (method * list value * Env)) (w : World) :
  c (self (calls prog w).2) = c (self w)
  /\ cMu (self (calls prog w).2) = cMu (self w)
  /\ (is_Some (cache (self (calls prog w).2)) <-> is_Some (cache (self w))).
Proof.
  revert w. induction prog as [|[[m args] e] rest IH]; intros w; [done|].
  simpl. unfold bind.
  pose proof (call_frame m args e w) as (Hcfg & Hmu & Hmap).
  destruct (call m args e w) as [[[]| |] w1]; simpl in *; [|done..].
  destruct (IH w1) as (Hcfg' & Hmu' & Hmap').
  rewrite Hcfg', Hmu', Hmap'. done.
Qed.

Section Visible.
Context {sty : Styling}.
Hypothesis Hkeeps : keepsText sty.

Lemma messageLine_shows (tag msg : string) (e : Env) :
  contains (messageLine tag msg e) (currentDate e)
  /\ contains (messageLine tag msg e) (currentTime e)
  /\ contains (messageLine tag msg e) msg.
Proof.
  destruct Hkeeps as [Hkeep HkeepExt]. unfold messageLine. repeat split.
  - do 3 apply contains_append_r. apply contains_append_l, HkeepExt.
  - do 5 apply contains_append_r. apply contains_append_l, Hkeep.
  - do 7 apply contains_append_r. apply Hkeep.
Qed.

Lemma headerLine_shows (tag : string) (e : Env) :
  contains (headerLine tag e) (currentDate e)
  /\ contains (headerLine tag e) (currentTime e)
  /\ contains (headerLine tag e) (callerFields e).1
  /\ contains (headerLine tag e) (callerFields e).2.
Proof.
  destruct Hkeeps as [Hkeep HkeepExt]. unfold headerLine. repeat split.
  - do 3 apply contains_append_r. apply contains_append_l, HkeepExt.
  - do 5 apply contains_append_r. apply contains_append_l, Hkeep.
  - do 7 apply contains_append_r. apply contains_append_l, Hkeep.
  - do 9 apply contains_append_r. apply contains_append_l, Hkeep.
Qed.

Lemma detailLine_shows (msg : string) : contains (detailLine msg) msg.
Proof.
  destruct Hkeeps as [_ HkeepExt]. unfold detailLine.
  apply contains_append_r, HkeepExt.
Qed.

Lemma headerAndDetail_shows (tag : string) (args : list value) (e : Env) :
  exists line : string,
    Stdout line ∈ headerAndDetail tag args e
    /\ contains line (Sprint args).
Proof.
  unfold headerAndDetail. destruct args as [|a rest].
  - eexists. split; [apply list_elem_of_here|].
    exists EmptyString. eexists. reflexivity.
  - eexists. split; [apply list_elem_of_further, list_elem_of_here|].
    apply contains_append_l, detailLine_shows.
Qed.

End Visible.

(** X10: with styling functions that keep their text, every method but
    [Error] returns in every state of the logger, and what it adds to
    standard output starts with a line that shows the date and the time and
    has a line that shows the message body; for [InfoC], [WarnC] and [Debug]
    the first line also shows the name of the calling function and the line
    number. *)
Theorem X10_printed_lines_show_their_fields {sty : Styling} (m : method)
    (args : list value) (e : Env) (w : World) :
  keepsText sty -> m <> MError ->
  exists (first : string) (more : list event),
    call m args e w
    = (Returned tt, mkWorld (self w) (events w ++ Stdout first :: more))
    /\ contains first (currentDate e)
    /\ contains first (currentTime e)
    /\ (exists line : string,
          Stdout line ∈ Stdout first :: more /\ contains line (Sprint args))
    /\ (m <> MInfo -> m <> MWarn ->
        contains first (callerFields e).1
        /\ contains first (callerFields e).2).
Proof.
  intros Hkeeps Hm. rewrite call_prints by done. unfold andThen.
  assert (forall tag : string,
            exists (first : string) (more : list event),
              headerAndDetail tag args e = Stdout first :: more
              /\ contains first (currentDate e)
              /\ contains first (currentTime e)
              /\ (exists line : string,
                    Stdout line ∈ Stdout first :: more
                    /\ contains line (Sprint args))
              /\ contains first (callerFields e).1
              /\ contains first (callerFields e).2) as Hheader.
  { intros tag.
    destruct (headerLine_shows Hkeeps tag e) as (Hd & Ht & Hn & Hl).
    do 2 eexists. split; [reflexivity|].
    repeat split; try by apply contains_append_l.
    apply (headerAndDetail_shows Hkeeps). }
  assert (forall tag : string,
            exists first : string,
              first = messageLine tag (Sprint args) e +:+ newline
              /\ contains first (currentDate e)
              /\ contains first (currentTime e)
              /\ contains first (Sprint args)) as Hmessage.
  { intros tag.
    destruct (messageLine_shows Hkeeps tag (Sprint args) e) as (Hd & Ht & Hb).
    eexists. split; [reflexivity|].
    repeat split; by apply contains_append_l. }
  destruct m; try done; simpl emitted.
  - destruct (Hmessage (formatTextExt bold brightGreen " INFO "))
      as (first & -> & Hd & Ht & Hb).
    do 2 eexists. split; [reflexivity|]. repeat split; try done.
    eexists. split; [apply list_elem_of_here|done].
  - destruct (Hheader (formatTextExt bold brightGreen " INFO "))
      as (first & more & -> & Hd & Ht & Hb & Hn & Hl).
    by exists first, more.
  - destruct (Hmessage (formatTextExt bold orange " WARN "))
      as (first & -> & Hd & Ht & Hb).
    do 2 eexists. split; [reflexivity|]. repeat split; try done.
    eexists. split; [apply list_elem_of_here|done].
  - destruct (Hheader (formatTextExt bold orange " WARN "))
      as (first & more & -> & Hd & Ht & Hb & Hn & Hl).
    by exists first, more.
  - destruct (Hheader (formatTextExt bold magenta " DBUG "))
      as (first & more & -> & Hd & Ht & Hb & Hn & Hl).
    by exists first, more.
Qed.

Lemma X10_printed_lines_show_their_fields_witness :
  exists (first : string) (more : list event),
    @call ansi MDebug [VString "x"; VInt 1] env0 world0
    = (Returned tt, mkWorld (New None) (Stdout first :: more))
    /\ contains first "main.run"
    /\ contains first "42".
Proof.
  destruct (@X10_printed_lines_show_their_fields ansi MDebug
              [VString "x"; VInt 1] env0 world0 ansi_keepsText)
    as (first & more & Hrun & _ & _ & _ & Hcaller); [discriminate|].
  exists first, more. split; [exact Hrun|].
  apply Hcaller; discriminate.
Defined.
